(** * M-Pesa STK push service: validation, initiation, reconciliation, queries

    A shallow embedding of [src/python/app.py] (with the constants of
    [src/python/config.py]) and the properties of its transaction
    lifecycle.

    Conventions of the embedding:
    - JSON data and Python values are the inductive [value]; a Python
      [dict] parsed from JSON is an association list ([VObj]), a stored
      MongoDB document is a finite map from field names to values.
    - Text is modelled over ASCII: one [ascii] per code point, where the
      regular-expression class [\d] is exactly [0-9] and [str.upper]
      only moves [a-z].
    - A Python [float] is a binary64 number, [spec_float] with
      [prec = 53] and [emax = 1024]; [VFloat] is meant to carry a
      canonical one.
    - Python exceptions are the error side of the monad [M]; every
      handler ends in the source's [except Exception] clause, which turns
      them into a 500 answer.
    - The clock, the two outbound HTTP calls and the parsers behind
      [float(str)] and [int(str)] are inputs of the model. *)

From Stdlib Require Import ZArith String Ascii List Bool Lia.
From Stdlib Require Import Floats.SpecFloat.
From stdpp Require Import base option list gmap strings pretty sorting.

Set Warnings "-register-all".
Local Open Scope string_scope.
Local Open Scope list_scope.
Local Open Scope Z_scope.

(** ** Values *)

(** [datetime.datetime], naive: the fields CPython stores and compares. *)
Record datetime := mkDatetime {
  year : Z; month : Z; day : Z;
  hour : Z; minute : Z; second : Z; microsecond : Z
}.

Inductive value :=
| VNull
| VBool (b : bool)
| VInt (n : Z)
| VFloat (f : spec_float)
| VStr (s : string)
| VList (l : list value)
| VObj (o : list (string * value))
| VDate (d : datetime).

#[global] Instance datetime_eq_dec : EqDecision datetime.
Proof. solve_decision. Defined.

#[global] Instance spec_float_eq_dec : EqDecision spec_float.
Proof. solve_decision. Defined.

Fixpoint value_eqb (x y : value) {struct x} : bool :=
  match x, y with
  | VNull, VNull => true
  | VBool a, VBool b => bool_decide (a = b)
  | VInt a, VInt b => bool_decide (a = b)
  | VFloat a, VFloat b => bool_decide (a = b)
  | VStr a, VStr b => bool_decide (a = b)
  | VList a, VList b =>
      (fix go (l1 l2 : list value) {struct l1} : bool :=
         match l1, l2 with
         | [], [] => true
         | v1 :: r1, v2 :: r2 => value_eqb v1 v2 && go r1 r2
         | _, _ => false
         end) a b
  | VObj a, VObj b =>
      (fix go (l1 l2 : list (string * value)) {struct l1} : bool :=
         match l1, l2 with
         | [], [] => true
         | (k1, v1) :: r1, (k2, v2) :: r2 =>
             bool_decide (k1 = k2) && value_eqb v1 v2 && go r1 r2
         | _, _ => false
         end) a b
  | VDate a, VDate b => bool_decide (a = b)
  | _, _ => false
  end.

Lemma value_eqb_spec : forall x y, value_eqb x y = true <-> x = y.
Proof.
  fix IH 1. intros x y.
  destruct x, y; simpl; try (split; [discriminate | congruence]);
    try (rewrite bool_decide_eq_true; split; congruence).
  - tauto.
  - revert l0. induction l as [|v1 r1 IHl]; intros [|v2 r2];
      try (split; [discriminate | congruence]).
    + tauto.
    + rewrite andb_true_iff, IH. specialize (IHl r2).
      split.
      * intros [-> H]. apply IHl in H. congruence.
      * intros H. injection H as -> ->. split; [done|]. apply IHl. done.
  - revert o0. induction o as [|[k1 v1] r1 IHo]; intros [|[k2 v2] r2];
      try (split; [discriminate | congruence]).
    + tauto.
    + rewrite !andb_true_iff, bool_decide_eq_true, IH. specialize (IHo r2).
      split.
      * intros [[-> ->] H]. apply IHo in H. congruence.
      * intros H. injection H as -> -> ->. repeat split. apply IHo. done.
Qed.

#[global] Instance value_eq_dec : EqDecision value.
Proof.
  intros x y. destruct (value_eqb x y) eqn:E.
  - left. apply value_eqb_spec. exact E.
  - right. intros H. apply value_eqb_spec in H. congruence.
Defined.

(** ** Python primitives *)

(** Exceptions the handlers can meet. *)
Inductive exn :=
| TypeError | ValueError | AttributeError | OverflowError
| UnicodeEncodeError
| RequestError                (* requests / HTTP status / body not JSON *)
| DuplicateKeyError           (* pymongo.errors.DuplicateKeyError *)
| Exception (msg : string)            (* Exception(msg) *)
| Wrapped (msg : string) (e : exn).   (* Exception(f"{msg}: {str(e)}") *)

(** The error monad: [inl e] is a raised exception. *)
Definition M (A : Type) : Type := exn + A.
Definition ret {A} (a : A) : M A := inr a.
Definition raise {A} (e : exn) : M A := inl e.
Definition bind {A B} (m : M A) (k : A -> M B) : M B :=
  match m with inl e => inl e | inr a => k a end.

Notation "x <- m ;; k" := (bind m (fun x => k))
  (at level 100, m at next level, right associativity, only parsing).

(** Truth value of an object ([if x:] / [not x]). *)
Definition truthy (v : value) : bool :=
  match v with
  | VNull => false
  | VBool b => b
  | VInt n => negb (Z.eqb n 0)
  | VFloat (S754_zero _) => false
  | VFloat _ => true
  | VStr s => negb (bool_decide (s = ""))
  | VList l => negb (bool_decide (l = []))
  | VObj o => negb (bool_decide (o = []))
  | VDate _ => true
  end.

(** [x == 0] for a JSON value [x]: numbers compare by value across
    [int], [float] and [bool]; anything else is unequal to [0]. *)
Definition eq_zero (v : value) : bool :=
  match v with
  | VInt n => Z.eqb n 0
  | VFloat (S754_zero _) => true
  | VBool b => negb b
  | _ => false
  end.

(** Lookup in an association list, first binding. *)
Fixpoint assoc (k : string) (o : list (string * value)) : option value :=
  match o with
  | [] => None
  | (k', v) :: r => if bool_decide (k' = k) then Some v else assoc k r
  end.

(** [d.get(k, dflt)]: [AttributeError] unless [d] is a dict. *)
Definition get (d : value) (k : string) (dflt : value) : M value :=
  match d with
  | VObj o => ret (default dflt (assoc k o))
  | _ => raise AttributeError
  end.

(** [k in c] for a string [k]: key of a dict, element of a list,
    substring of a string; [TypeError] on anything else. *)
Definition contains (c : value) (k : string) : M bool :=
  match c with
  | VObj o => ret (bool_decide (is_Some (assoc k o)))
  | VList l => ret (existsb (value_eqb (VStr k)) l)
  | VStr s => ret (bool_decide (is_Some (String.index 0 k s)))
  | _ => raise TypeError
  end.

(** [c[k]] for a string [k]: only a dict can be subscripted by a string. *)
Definition subscript (c : value) (k : string) : M value :=
  match c with
  | VObj o => match assoc k o with Some v => ret v | None => raise (Exception "KeyError") end
  | _ => raise TypeError
  end.

(** [for item in c]: the items a loop over [c] visits. *)
Definition iterate (c : value) : M (list value) :=
  match c with
  | VList l => ret l
  | VObj o => ret (map (fun kv => VStr (fst kv)) o)
  | VStr s => ret (map (fun ch => VStr (String ch EmptyString)) (list_ascii_of_string s))
  | _ => raise TypeError
  end.

(** Hashable objects can be dict keys; lists and dicts cannot. *)
Definition hashable (v : value) : bool :=
  match v with VList _ | VObj _ => false | _ => true end.

(** ** Text *)

Definition is_digit (c : ascii) : bool :=
  let n := N_of_ascii c in (48 <=? n)%N && (n <=? 57)%N.

(** [re.sub(r'[^\d]', '', s)]: keep the digits, drop everything else. *)
Fixpoint digits_only (s : string) : string :=
  match s with
  | EmptyString => EmptyString
  | String c r => if is_digit c then String c (digits_only r) else digits_only r
  end.

(** [s.startswith(p)] *)
Definition startswith (s p : string) : bool := String.prefix p s.

(** [len(s)] *)
Definition len (s : string) : Z := Z.of_nat (String.length s).

Definition upper_char (c : ascii) : ascii :=
  let n := N_of_ascii c in
  if (97 <=? n)%N && (n <=? 122)%N then ascii_of_N (n - 32) else c.

(** [s.upper()] *)
Fixpoint upper (s : string) : string :=
  match s with
  | EmptyString => EmptyString
  | String c r => String (upper_char c) (upper r)
  end.

(** [s.encode('ascii')]: the code points, or [UnicodeEncodeError]. *)
Fixpoint encode_ascii (s : string) : M (list N) :=
  match s with
  | EmptyString => ret []
  | String c r =>
      let n := N_of_ascii c in
      if (n <? 128)%N then bs <- encode_ascii r ;; ret (n :: bs)
      else raise UnicodeEncodeError
  end.

Definition b64_alphabet : string :=
  "ABCDEFGHIJKLMNOPQRSTUVWXYZabcdefghijklmnopqrstuvwxyz0123456789+/".

Definition b64_char (n : N) : string :=
  match String.get (N.to_nat (n mod 64)) b64_alphabet with
  | Some c => String c EmptyString
  | None => EmptyString
  end.

(** [base64.b64encode(bs).decode('ascii')] *)
Fixpoint b64encode (bs : list N) : string :=
  match bs with
  | [] => ""
  | [a] =>
      let n := (a * 65536)%N in
      b64_char (n / 262144) +:+ b64_char (n / 4096) +:+ "=="
  | [a; b] =>
      let n := (a * 65536 + b * 256)%N in
      b64_char (n / 262144) +:+ b64_char (n / 4096) +:+ b64_char (n / 64) +:+ "="
  | a :: b :: c :: r =>
      let n := (a * 65536 + b * 256 + c)%N in
      b64_char (n / 262144) +:+ b64_char (n / 4096) +:+ b64_char (n / 64)
        +:+ b64_char n +:+ b64encode r
  end.

(** Decimal rendering padded with zeros to [w] digits, as [strftime] and
    [isoformat] print their fields. *)
Definition zero_pad (w : nat) (n : Z) : string :=
  let s := pretty n in
  String.concat "" (replicate (w - String.length s) "0") +:+ s.

(** [d.strftime('%Y%m%d%H%M%S')] *)
Definition strftime_compact (d : datetime) : string :=
  zero_pad 4 (year d) +:+ zero_pad 2 (month d) +:+ zero_pad 2 (day d)
    +:+ zero_pad 2 (hour d) +:+ zero_pad 2 (minute d) +:+ zero_pad 2 (second d).

(** [d.isoformat()] *)
Definition isoformat (d : datetime) : string :=
  zero_pad 4 (year d) +:+ "-" +:+ zero_pad 2 (month d) +:+ "-" +:+ zero_pad 2 (day d)
    +:+ "T" +:+ zero_pad 2 (hour d) +:+ ":" +:+ zero_pad 2 (minute d)
    +:+ ":" +:+ zero_pad 2 (second d)
    +:+ (if Z.eqb (microsecond d) 0 then "" else "." +:+ zero_pad 6 (microsecond d)).

(** Order of naive datetimes: lexicographic on the fields. *)
Definition datetime_key (d : datetime) : list Z :=
  [year d; month d; day d; hour d; minute d; second d; microsecond d].

Fixpoint lex_leb (a b : list Z) : bool :=
  match a, b with
  | [], _ => true
  | _ :: _, [] => false
  | x :: a', y :: b' => (x <? y) || ((x =? y) && lex_leb a' b')
  end.

Definition datetime_leb (a b : datetime) : bool :=
  lex_leb (datetime_key a) (datetime_key b).

(** ** Floats *)

Definition float_of_Z (n : Z) : spec_float := binary_normalize 53 1024 n 0 false.

(** [int(f)] for a float: truncation toward zero. *)
Definition int_of_float (f : spec_float) : M Z :=
  match f with
  | S754_nan => raise ValueError
  | S754_infinity _ => raise OverflowError
  | S754_zero _ => ret 0
  | S754_finite s m e => ret (cond_Zopp s (Z.shiftl (Z.pos m) e))
  end.

(** ** Configuration ([config.Config]) *)

Record Config := mkConfig {
  CONSUMER_KEY : string;
  CONSUMER_SECRET : string;
  BUSINESS_SHORTCODE : string;
  PASSKEY : string;
  CALLBACK_URL : string;
  API_URL : string
}.

Definition MIN_AMOUNT : Z := 1.
Definition MAX_AMOUNT : Z := 70000.

(** A Python pair [(ok, result)] as returned by the validators:
    [(True, a)] is [Valid a], [(False, msg)] is [Invalid msg]. *)
Inductive validation (A : Type) :=
| Valid (a : A)
| Invalid (msg : string).
Arguments Valid {A} a.
Arguments Invalid {A} msg.

(** ** Validators *)

Definition validate_phone_number (phone : value) : M (validation string) :=
  if negb (truthy phone) then ret (Invalid "Phone number is required")
  else match phone with
  | VStr s =>
      let phone := digits_only s in
      if negb (startswith phone "254") then
        ret (Invalid "Phone number must start with 254")
      else if negb (len phone =? 12) then
        ret (Invalid "Phone number must be 12 digits (254XXXXXXXXX)")
      else if negb (startswith phone "2547" || startswith phone "2541") then
        ret (Invalid "Phone number must be a valid Safaricom number")
      else ret (Valid phone)
  | _ => raise TypeError      (* re.sub on a non-string *)
  end.

Section Builtins.

(** The parsers of the Python runtime behind [float(s)] and [int(s)] for
    a string [s]; [None] is [ValueError]. *)
Variable float_of_str : string -> option spec_float.
Variable int_of_str : string -> option Z.

(** [float(x)] *)
Definition py_float (x : value) : M spec_float :=
  match x with
  | VFloat f => ret f
  | VInt n =>
      match float_of_Z n with
      | S754_infinity _ => raise OverflowError
      | f => ret f
      end
  | VBool b => ret (float_of_Z (if b then 1 else 0))
  | VStr s =>
      match float_of_str s with
      | Some f => ret f
      | None => raise ValueError
      end
  | VNull | VList _ | VObj _ | VDate _ => raise TypeError
  end.

Definition validate_amount (amount : value) : M (validation spec_float) :=
  match py_float amount with
  | inr amount =>
      if SFltb amount (float_of_Z MIN_AMOUNT) then
        ret (Invalid ("Amount must be at least " +:+ pretty MIN_AMOUNT +:+ " KES"))
      else if SFltb (float_of_Z MAX_AMOUNT) amount then
        ret (Invalid ("Amount cannot exceed " +:+ pretty MAX_AMOUNT +:+ " KES"))
      else ret (Valid amount)
  | inl ValueError | inl TypeError => ret (Invalid "Invalid amount format")
  | inl e => raise e
  end.

End Builtins.

(** ** The transaction store

    The MongoDB collection [transactions_collection]: documents in
    insertion order. The generated [_id] field is left out (the only
    read path projects it away). A filter [{k: v}] selects the documents
    whose field [k] holds exactly [v]; MongoDB's matching inside arrays
    and its equality across numeric types are outside the model. *)

Abbreviation document := (gmap string value).
Abbreviation store := (list (gmap string value)).

(** The key a document has in an index on [f]: a missing field indexes
    as null. *)
Definition field (f : string) (d : document) : value := default VNull (d !! f).

(** [create_index(..., unique=True)], lines 36-37 of app.py. *)
Definition unique_indexes : list string := ["transaction_id"; "checkout_request_id"].

(** Does [d] collide with one of [others] on one of the unique [fields]? *)
Definition clashes (d : document) (others : store) (fields : list string) : bool :=
  existsb (fun f => existsb (fun d' => bool_decide (field f d' = field f d)) others) fields.

Definition matches (query : list (string * value)) (d : document) : bool :=
  forallb (fun kv => bool_decide (d !! fst kv = Some (snd kv))) query.

(** [insert_one(doc)] *)
Definition insert_one (doc : document) (s : store) : M store :=
  if clashes doc s unique_indexes then raise DuplicateKeyError
  else ret (s ++ [doc]).

(** The first document selected by [p], with what precedes and follows. *)
Fixpoint split_first (p : document -> bool) (s : store)
  : option (store * document * store) :=
  match s with
  | [] => None
  | d :: r =>
      if p d then Some ([], d, r)
      else match split_first p r with
           | Some (pre, x, post) => Some (d :: pre, x, post)
           | None => None
           end
  end.

(** The unique keys on which [d'], the new state of [d], differs from it. *)
Definition moved_keys (d' d : document) : list string :=
  filter (fun f => field f d' ≠ field f d) unique_indexes.

(** [update_one(query, {"$set": set})]: overwrite the fields of [set] in
    the first matching document; the result is [matched_count] and the
    new collection. A unique index is consulted only for a key that
    changes. *)
Definition update_one (query : list (string * value)) (set : document) (s : store)
  : M (Z * store) :=
  match split_first (matches query) s with
  | None => ret (0, s)
  | Some (pre, d, post) =>
      let d' := set ∪ d in
      if clashes d' (pre ++ post) (moved_keys d' d) then raise DuplicateKeyError
      else ret (1, pre ++ d' :: post)
  end.

(** [count_documents(query)] *)
Definition count_documents (query : list (string * value)) (s : store) : Z :=
  Z.of_nat (length (filter (fun d => matches query d = true) s)).

(** Order of [created_at] keys. Every JSON type sorts before a date in
    BSON; documents written by this service always hold a datetime
    there, and the order among other values is taken as a tie. *)
Definition created_leb (a b : document) : bool :=
  match field "created_at" a, field "created_at" b with
  | VDate x, VDate y => datetime_leb x y
  | VDate _, _ => false
  | _, _ => true
  end.

(** [a] may come before [b] in descending [created_at] order. *)
Definition newer_first (a b : document) : Prop := created_leb b a = true.

#[global] Instance newer_first_dec : RelDecision newer_first.
Proof. intros a b. unfold newer_first. apply _. Defined.

(** [.sort('created_at', -1)] *)
Definition sort_created_desc (s : store) : store := merge_sort newer_first s.

(** [.limit(n)] of a cursor: [0] means no limit, a negative [n] returns
    at most [-n] documents. *)
Definition cursor_limit (n : Z) (l : store) : store :=
  if n =? 0 then l else take (Z.to_nat (Z.abs n)) l.

(** [list(find(query).sort('created_at', -1).skip(skip).limit(limit))];
    [Cursor.skip] raises [ValueError] on a negative offset. *)
Definition find_page (query : list (string * value)) (skip limit : Z) (s : store)
  : M store :=
  let found := filter (fun d => matches query d = true) s in
  let sorted := sort_created_desc found in
  if skip <? 0 then raise ValueError
  else ret (cursor_limit limit (drop (Z.to_nat skip) sorted)).

(** ** HTTP answers *)

Inductive response :=
| Json (code : Z) (body : value)
    (* jsonify(body), code *)
| Listing (transactions : store) (count total : Z)
    (* jsonify({'transactions': ..., 'count': ..., 'total': ...}), 200 *)
| ServerError (error : string) (e : exn).
    (* jsonify({'error': error, 'details': str(e)}), 500 *)

Definition status_code (r : response) : Z :=
  match r with
  | Json code _ => code
  | Listing _ _ _ => 200
  | ServerError _ _ => 500
  end.

Definition error_body (msg : string) : value := VObj [("error", VStr msg)].

(** ** Outbound calls

    A request the service sends to the provider. The answer is an input
    of the model: [inr v] is the decoded JSON body, [inl e] any failure of
    [requests.get]/[requests.post], [raise_for_status] or [response.json]. *)

Inductive outbound :=
| TokenGet (url : string) (basic : string)
    (* requests.get(url, headers={'Authorization': f'Basic {basic}', ...}) *)
| StkPost (url : string) (bearer : value) (payload : value).
    (* requests.post(url, json=payload, headers={'Authorization': f'Bearer {bearer}', ...}) *)

(** Computations that may raise and that record the requests they sent. *)
Definition IO (A : Type) : Type := list outbound * M A.
Definition io_ret {A} (a : A) : IO A := ([], inr a).
Definition io_lift {A} (m : M A) : IO A := ([], m).
Definition io_send (req : outbound) (reply : M value) : IO value := ([req], reply).
Definition io_bind {A B} (m : IO A) (k : A -> IO B) : IO B :=
  match m with
  | (sent, inl e) => (sent, inl e)
  | (sent, inr a) => let '(sent', r) := k a in (sent ++ sent', r)
  end.

Notation "x <~ m ;; k" := (io_bind m (fun x => k))
  (at level 100, m at next level, right associativity, only parsing).

(** What an initiation reads from outside: the two clocks and the
    provider's answers to the token and the push request. *)
Record world := mkWorld {
  utcnow : datetime;
  now : datetime;
  token_reply : M value;
  stk_reply : M value
}.

Section App.

Variable cfg : Config.
Variable float_of_str : string -> option spec_float.
Variable int_of_str : string -> option Z.

Definition get_access_token (w : world) : IO value :=
  let attempt : IO value :=
    auth_bytes <~ io_lift (encode_ascii (CONSUMER_KEY cfg +:+ ":" +:+ CONSUMER_SECRET cfg)) ;;
    let auth_b64 := b64encode auth_bytes in
    let url := API_URL cfg +:+ "/oauth/v1/generate?grant_type=client_credentials" in
    token_data <~ io_send (TokenGet url auth_b64) (token_reply w) ;;
    present <~ io_lift (contains token_data "access_token") ;;
    if negb present then io_lift (raise (Exception "Access token not found in response"))
    else io_lift (subscript token_data "access_token") in
  match attempt with
  | (sent, inl e) => (sent, raise (Wrapped "Failed to get access token" e))
  | ok => ok
  end.

Definition generate_password (w : world) : M (string * string) :=
  let timestamp := strftime_compact (now w) in
  let password_string := BUSINESS_SHORTCODE cfg +:+ PASSKEY cfg +:+ timestamp in
  match encode_ascii password_string with
  | inr password_bytes => ret (b64encode password_bytes, timestamp)
  | inl e => raise (Wrapped "Failed to generate password" e)
  end.

(** The STK push payload, lines 184-196. *)
Definition stk_payload (password timestamp : string) (amount : Z)
    (phone_result : string) (account_reference transaction_desc : value) : value :=
  VObj [ ("BusinessShortCode", VStr (BUSINESS_SHORTCODE cfg));
         ("Password", VStr password);
         ("Timestamp", VStr timestamp);
         ("TransactionType", VStr "CustomerPayBillOnline");
         ("Amount", VInt amount);
         ("PartyA", VStr phone_result);
         ("PartyB", VStr (BUSINESS_SHORTCODE cfg));
         ("PhoneNumber", VStr phone_result);
         ("CallBackURL", VStr (CALLBACK_URL cfg));
         ("AccountReference", account_reference);
         ("TransactionDesc", transaction_desc) ].

(** The PENDING document, lines 223-234. *)
Definition pending_transaction (w : world) (phone_result : string)
    (amount_result : spec_float) (account_reference transaction_desc : value)
    (checkout_request_id merchant_request_id customer_message request_id : value)
  : document :=
  list_to_map
    [ ("phone", VStr phone_result);
      ("amount", VFloat amount_result);
      ("status", VStr "PENDING");
      ("account_reference", account_reference);
      ("transaction_desc", transaction_desc);
      ("created_at", VDate (utcnow w));
      ("checkout_request_id", checkout_request_id);
      ("merchant_request_id", merchant_request_id);
      ("customer_message", customer_message);
      ("request_id", request_id) ].

(** The body of [initiate_stk_push] inside its [try]. *)
Definition initiate_body (w : world) (data : value) (s : store) : IO (response * store) :=
  if negb (truthy data) then io_ret (Json 400 (error_body "Request body is required"), s)
  else
    phone <~ io_lift (get data "phone" VNull) ;;
    amount <~ io_lift (get data "amount" VNull) ;;
    account_reference <~ io_lift (get data "account_reference" (VStr "Payment")) ;;
    transaction_desc <~
      io_lift (get data "transaction_desc" (VStr "Payment for goods/services")) ;;
    phone_check <~ io_lift (validate_phone_number phone) ;;
    match phone_check with
    | Invalid phone_result => io_ret (Json 400 (error_body phone_result), s)
    | Valid phone_result =>
    amount_check <~ io_lift (validate_amount float_of_str amount) ;;
    match amount_check with
    | Invalid amount_result => io_ret (Json 400 (error_body amount_result), s)
    | Valid amount_result =>
    access_token <~ get_access_token w ;;
    pw <~ io_lift (generate_password w) ;;
    let '(password, timestamp) := pw in
    amount_int <~ io_lift (int_of_float amount_result) ;;
    let payload :=
      stk_payload password timestamp amount_int phone_result
        account_reference transaction_desc in
    response_data <~
      io_send (StkPost (API_URL cfg +:+ "/mpesa/stkpush/v1/processrequest")
                 access_token payload) (stk_reply w) ;;
    has_error <~ io_lift (contains response_data "errorCode") ;;
    if has_error then
      details <~ io_lift (get response_data "errorMessage" (VStr "Unknown error")) ;;
      io_ret (Json 400 (VObj [("error", VStr "Payment initiation failed");
                              ("details", details)]), s)
    else
      checkout_request_id <~ io_lift (get response_data "CheckoutRequestID" VNull) ;;
      merchant_request_id <~ io_lift (get response_data "MerchantRequestID" VNull) ;;
      customer_message <~ io_lift (get response_data "CustomerMessage" (VStr "")) ;;
      request_id <~ io_lift (get response_data "RequestID" (VStr "")) ;;
      let transaction :=
        pending_transaction w phone_result amount_result account_reference
          transaction_desc checkout_request_id merchant_request_id
          customer_message request_id in
      match insert_one transaction s with
      | inl DuplicateKeyError => io_ret (Json 409 (error_body "Duplicate transaction"), s)
      | inl e => io_lift (raise e)
      | inr s' =>
          customer_message' <~ io_lift (get response_data "CustomerMessage" VNull) ;;
          io_ret (Json 200
                    (VObj [("message", VStr "Payment initiated successfully");
                           ("data", VObj [("checkout_request_id", checkout_request_id);
                                          ("merchant_request_id", merchant_request_id);
                                          ("customer_message", customer_message');
                                          ("status", VStr "PENDING")])]), s')
      end
    end end.

(** [POST /initiate_payment], past the token check: the answer, the
    collection afterwards, and the requests sent to the provider. *)
Definition initiate_stk_push (w : world) (data : value) (s : store)
  : response * store * list outbound :=
  match initiate_body w data s with
  | (sent, inr (r, s')) => (r, s', sent)
  | (sent, inl e) => (ServerError "Payment initiation failed" e, s, sent)
  end.

(** The [for] loop of lines 293-295. A later item overrides an earlier
    one with an equal name; only string keys are ever looked up. *)
Fixpoint metadata_loop (items : list value) (metadata_dict : list (value * value))
  : M (list (value * value)) :=
  match items with
  | [] => ret metadata_dict
  | item :: rest =>
      v <- get item "Value" VNull ;;
      name <- get item "Name" VNull ;;
      if hashable name then metadata_loop rest ((name, v) :: metadata_dict)
      else raise TypeError
  end.

(** [metadata_dict.get(k)] *)
Fixpoint metadata_get (k : string) (metadata_dict : list (value * value)) : value :=
  match metadata_dict with
  | [] => VNull
  | (name, v) :: rest =>
      if bool_decide (name = VStr k) then v else metadata_get k rest
  end.

(** The status a callback asks for, line 283. *)
Definition target_status (result_code : value) : string :=
  if eq_zero result_code then "SUCCESS" else "FAILED".

(** [update_data] as first built, lines 282-287. *)
Definition base_update (t : datetime) (result_code result_desc : value) : document :=
  list_to_map [ ("status", VStr (target_status result_code));
                ("result_code", result_code);
                ("result_desc", result_desc);
                ("updated_at", VDate t) ].

(** [metadata_dict], lines 291-295. *)
Definition extract_metadata (stk_callback : value) : M (list (value * value)) :=
  callback_metadata_obj <- get stk_callback "CallbackMetadata" (VObj []) ;;
  callback_metadata <- get callback_metadata_obj "Item" (VList []) ;;
  items <- iterate callback_metadata ;;
  metadata_loop items [].

(** The argument of [update_data.update], lines 297-303. *)
Definition metadata_update (metadata_dict : list (value * value)) : document :=
  list_to_map [ ("amount", metadata_get "Amount" metadata_dict);
                ("phone", metadata_get "PhoneNumber" metadata_dict);
                ("transaction_id", metadata_get "MpesaReceiptNumber" metadata_dict);
                ("transaction_date", metadata_get "TransactionDate" metadata_dict);
                ("balance", metadata_get "Balance" metadata_dict) ].

(** [update_data] as passed to [$set], lines 282-303. *)
Definition prepare_update (t : datetime) (stk_callback result_code result_desc : value)
  : M document :=
  let update_data := base_update t result_code result_desc in
  if eq_zero result_code then
    metadata_dict <- extract_metadata stk_callback ;;
    ret (metadata_update metadata_dict ∪ update_data)
  else ret update_data.

(** The body of [handle_callback] inside its [try]; [t] is what
    [datetime.utcnow()] reads. *)
Definition callback_body (t : datetime) (callback_data : value) (s : store)
  : M (response * store) :=
  if negb (truthy callback_data) then
    ret (Json 400 (error_body "Callback data is required"), s)
  else
    body <- get callback_data "Body" (VObj []) ;;
    stk_callback <- get body "stkCallback" (VObj []) ;;
    if negb (truthy stk_callback) then
      ret (Json 400 (error_body "Invalid callback format"), s)
    else
      result_code <- get stk_callback "ResultCode" VNull ;;
      result_desc <- get stk_callback "ResultDesc" VNull ;;
      checkout_request_id <- get stk_callback "CheckoutRequestID" VNull ;;
      if negb (truthy checkout_request_id) then
        ret (Json 400 (error_body "CheckoutRequestID is required"), s)
      else
        update_data <- prepare_update t stk_callback result_code result_desc ;;
        result <- update_one [("checkout_request_id", checkout_request_id)] update_data s ;;
        let '(matched_count, s') := result in
        if matched_count =? 0 then
          ret (Json 404 (error_body "Transaction not found"), s')
        else
          ret (Json 200 (VObj [("message", VStr "Callback processed successfully");
                               ("status", VStr (target_status result_code))]), s').

(** [POST /callback]: the answer and the collection afterwards. *)
Definition handle_callback (t : datetime) (callback_data : value) (s : store)
  : response * store :=
  match callback_body t callback_data s with
  | inr (r, s') => (r, s')
  | inl e => (ServerError "Callback processing failed" e, s)
  end.

(** The query string of [GET /transactions]; [None] is an absent
    parameter. *)
Record query_args := mkArgs {
  arg_phone : option string;
  arg_status : option string;
  arg_limit : option string;
  arg_skip : option string
}.

(** [int(request.args.get(name, dflt))] *)
Definition int_arg (a : option string) (dflt : Z) : M Z :=
  match a with
  | None => ret dflt
  | Some s => match int_of_str s with Some n => ret n | None => raise ValueError end
  end.

(** The filter of lines 339-343. *)
Definition build_query (phone status : option string) : list (string * value) :=
  (match phone with
   | Some p => if bool_decide (p = "") then [] else [("phone", VStr p)]
   | None => []
   end) ++
  (match status with
   | Some st => if bool_decide (st = "") then [] else [("status", VStr (upper st))]
   | None => []
   end).

(** Lines 351-355 for one field: a present value is replaced by its
    [isoformat()], which only a datetime has. *)
Definition iso_field (f : string) (d : document) : M document :=
  match d !! f with
  | None => ret d
  | Some (VDate t) => ret (<[f := VStr (isoformat t)]> d)
  | Some _ => raise AttributeError
  end.

Fixpoint iso_all (l : store) : M store :=
  match l with
  | [] => ret []
  | d :: r =>
      d1 <- iso_field "created_at" d ;;
      d2 <- iso_field "updated_at" d1 ;;
      r' <- iso_all r ;;
      ret (d2 :: r')
  end.

Definition transactions_body (args : query_args) (s : store) : M response :=
  let phone := arg_phone args in
  let status := arg_status args in
  limit_raw <- int_arg (arg_limit args) 50 ;;
  let limit := Z.min limit_raw 100 in
  skip <- int_arg (arg_skip args) 0 ;;
  let query := build_query phone status in
  page <- find_page query skip limit s ;;
  transactions <- iso_all page ;;
  ret (Listing transactions (Z.of_nat (length transactions)) (count_documents query s)).

(** [GET /transactions], past the token check. *)
Definition get_transactions (args : query_args) (s : store) : response :=
  match transactions_body args s with
  | inr r => r
  | inl e => ServerError "Failed to fetch transactions" e
  end.

End App.

(** ** Authentication ([require_api_token], lines 44-61)

    [check_password_hash] is werkzeug's; it is an input of the model, and
    so is the stored hash [config.Config.API_TOKEN]. *)

(** [s.replace(old, '')] for a non-empty [old]: every occurrence of
    [old], found from the left and without overlap, is dropped. [skip]
    counts the characters of an occurrence still to drop. *)
Fixpoint remove_all_from (old s : string) (skip : nat) : string :=
  match s with
  | EmptyString => EmptyString
  | String c r =>
      match skip with
      | S k => remove_all_from old r k
      | O =>
          if String.prefix old s then remove_all_from old r (String.length old - 1)
          else String c (remove_all_from old r 0)
      end
  end.

Definition remove_all (old s : string) : string := remove_all_from old s 0.

Section Auth.

Variable API_TOKEN : string.
Variable check_password_hash : string -> string -> M bool.

(** The decorator: [deny r] is the early [return r, 401], [f] the
    decorated call. *)
Definition require_api_token {A} (deny : response -> A) (auth_header : option string)
    (f : A) : A :=
  match auth_header with
  | None => deny (Json 401 (error_body "Missing Authorization header"))
  | Some header =>
      if bool_decide (header = "") then
        deny (Json 401 (error_body "Missing Authorization header"))
      else
        let token := remove_all "Bearer " header in
        match check_password_hash API_TOKEN token with
        | inr true => f
        | inr false => deny (Json 401 (error_body "Invalid API token"))
        | inl _ => deny (Json 401 (error_body "Authentication failed"))
        end
  end.

Variable cfg : Config.
Variable float_of_str : string -> option spec_float.
Variable int_of_str : string -> option Z.

(** [POST /initiate_payment] as routed: the decorated handler. *)
Definition initiate_payment (auth_header : option string) (w : world) (data : value)
    (s : store) : response * store * list outbound :=
  require_api_token (fun r => (r, s, [])) auth_header
    (initiate_stk_push cfg float_of_str w data s).

(** [GET /transactions] as routed. *)
Definition transactions (auth_header : option string) (args : query_args) (s : store)
  : response :=
  require_api_token (fun r => r) auth_header (get_transactions int_of_str args s).

End Auth.

(** ** Start-up check ([config.Config.validate_config], config.py 52-68)

    [getattr] reads a class attribute by name: what [os.getenv] gave,
    [None] for an unset variable. The result is [inr true] for
    [return True] and [inl msg] for [raise ValueError(msg)]. *)

Definition required_fields : list string :=
  ["CONSUMER_KEY"; "CONSUMER_SECRET"; "BUSINESS_SHORTCODE";
   "PASSKEY"; "CALLBACK_URL"; "API_TOKEN"].

(** [not getattr(cls, field)] *)
Definition unset (getattr : string -> option string) (f : string) : bool :=
  match getattr f with
  | None => true
  | Some v => bool_decide (v = "")
  end.

(** [', '.join(l)] *)
Fixpoint join_comma (l : list string) : string :=
  match l with
  | [] => ""
  | [x] => x
  | x :: r => x +:+ ", " +:+ join_comma r
  end.

Definition validate_config (getattr : string -> option string) : string + bool :=
  let missing_fields := List.filter (unset getattr) required_fields in
  if negb (bool_decide (missing_fields = [])) then
    inl ("Missing required configuration: " +:+ join_comma missing_fields)
  else inr true.

(** ** Vocabulary of the properties *)

(** The rules a phone number can break. *)
Inductive phone_rule :=
| MissingInput | LengthMismatch | BadCountryCode | UnsupportedPrefix.

(** The rule behind each message of [validate_phone_number]. *)
Definition rule_of_message (msg : string) : option phone_rule :=
  if bool_decide (msg = "Phone number is required") then Some MissingInput
  else if bool_decide (msg = "Phone number must start with 254") then Some BadCountryCode
  else if bool_decide (msg = "Phone number must be 12 digits (254XXXXXXXXX)")
       then Some LengthMismatch
  else if bool_decide (msg = "Phone number must be a valid Safaricom number")
       then Some UnsupportedPrefix
  else None.

(** What a call of the validator amounts to: the rule broken or the
    normalized number; [None] when it raised or gave an unknown message. *)
Definition phone_outcome (r : M (validation string)) : option (phone_rule + string) :=
  match r with
  | inr (Valid p) => Some (inr p)
  | inr (Invalid msg) => inl <$> rule_of_message msg
  | inl _ => None
  end.

(** [config.Config.PHONE_REGEX], [^254[17]\d{8}$], on a string without
    line breaks. *)
Definition phone_regex_match (s : string) : bool :=
  match s with
  | String c1 (String c2 (String c3 (String c4 r))) =>
      bool_decide (c1 = "2"%char) && bool_decide (c2 = "5"%char)
      && bool_decide (c3 = "4"%char)
      && (bool_decide (c4 = "1"%char) || bool_decide (c4 = "7"%char))
      && bool_decide (String.length r = 8%nat)
      && forallb is_digit (list_ascii_of_string r)
  | _ => false
  end.

(** Is the fourth character of [s] a [1] or a [7]? *)
Definition fourth_is_1_or_7 (s : string) : bool :=
  match String.get 3 s with
  | Some c => bool_decide (c = "1"%char) || bool_decide (c = "7"%char)
  | None => false
  end.

(** The validator as the specification words it: strip, then test for
    emptiness, length, country code and prefix, in that order. *)
Definition validate_phone_spec (input : string) : phone_rule + string :=
  let d := digits_only input in
  if bool_decide (d = "") then inl MissingInput
  else if negb (len d =? 12) then inl LengthMismatch
  else if negb (startswith d "254") then inl BadCountryCode
  else if negb (fourth_is_1_or_7 d) then inl UnsupportedPrefix
  else inr d.

(** The validator as the code orders its tests. *)
Definition phone_rules_in_code_order (input : string) : phone_rule + string :=
  let d := digits_only input in
  if bool_decide (input = "") then inl MissingInput
  else if negb (startswith d "254") then inl BadCountryCode
  else if negb (len d =? 12) then inl LengthMismatch
  else if negb (fourth_is_1_or_7 d) then inl UnsupportedPrefix
  else inr d.

Definition is_valid {A} (r : M (validation A)) : bool :=
  match r with inr (Valid _) => true | _ => false end.

(** The parts [handle_callback] reads from a callback that has the
    nested result structure and a checkout request id:
    [(stk_callback, result_code, result_desc, checkout_request_id)]. *)
Definition callback_parts (callback_data : value)
  : option (value * value * value * value) :=
  match callback_data with
  | VObj o =>
      match default (VObj []) (assoc "Body" o) with
      | VObj b =>
          match default (VObj []) (assoc "stkCallback" b) with
          | VObj k =>
              let cid := default VNull (assoc "CheckoutRequestID" k) in
              if truthy (VObj o) && truthy (VObj k) && truthy cid then
                Some (VObj k, default VNull (assoc "ResultCode" k),
                      default VNull (assoc "ResultDesc" k), cid)
              else None
          | _ => None
          end
      | _ => None
      end
  | _ => None
  end.




(** The 200 answer of [handle_callback], lines 317-320. *)
Definition ok_answer (rc : value) : response :=
  Json 200 (VObj [("message", VStr "Callback processed successfully");
                  ("status", VStr (target_status rc))]).


(** The 200 answer, the stored document and the push request of an
    accepted initiation, from the request [o] and the provider's answer
    [resp]. *)
Definition accepted_answer (resp : list (string * value)) : response :=
  Json 200
    (VObj [("message", VStr "Payment initiated successfully");
           ("data", VObj [("checkout_request_id", default VNull (assoc "CheckoutRequestID" resp));
                          ("merchant_request_id", default VNull (assoc "MerchantRequestID" resp));
                          ("customer_message", default VNull (assoc "CustomerMessage" resp));
                          ("status", VStr "PENDING")])]).

Definition accepted_document (w : world) (p : string) (a : spec_float) (o resp : list (string * value))
  : document :=
  pending_transaction w p a
    (default (VStr "Payment") (assoc "account_reference" o))
    (default (VStr "Payment for goods/services") (assoc "transaction_desc" o))
    (default VNull (assoc "CheckoutRequestID" resp))
    (default VNull (assoc "MerchantRequestID" resp))
    (default (VStr "") (assoc "CustomerMessage" resp))
    (default (VStr "") (assoc "RequestID" resp)).

Definition accepted_post (cfg : Config) (tok : value) (pw ts : string) (n : Z) (p : string)
    (o : list (string * value)) : outbound :=
  StkPost (API_URL cfg +:+ "/mpesa/stkpush/v1/processrequest") tok
    (stk_payload cfg pw ts n p
       (default (VStr "Payment") (assoc "account_reference" o))
       (default (VStr "Payment for goods/services") (assoc "transaction_desc" o))).

(** [n] is [f] cut to an integer toward zero: [n] has the sign of [f]
    and the largest magnitude not above that of [f = ± m * 2^e]. *)
Definition truncates (f : spec_float) (n : Z) : Prop :=
  match f with
  | S754_zero _ => n = 0
  | S754_finite sgn m e =>
      n = cond_Zopp sgn (Z.abs n)
      ∧ Z.abs n * 2 ^ Z.max 0 (- e) ≤ Z.pos m * 2 ^ Z.max 0 e
      ∧ Z.pos m * 2 ^ Z.max 0 e < (Z.abs n + 1) * 2 ^ Z.max 0 (- e)
  | _ => False
  end.

(** 100.75 as a binary64 number. *)
Definition float_100_75 : spec_float := binary_normalize 53 1024 403 (-2) false.

(** The operations that write the store, and a run of them. *)
Inductive operation :=
| Initiate (w : world) (data : value)
| Reconcile (t : datetime) (callback_data : value).

Section Runs.
Variable cfg : Config.
Variable float_of_str : string -> option spec_float.

Definition step (s : store) (op : operation) : store :=
  match op with
  | Initiate w data => snd (fst (initiate_stk_push cfg float_of_str w data s))
  | Reconcile t cb => snd (handle_callback t cb s)
  end.

Definition run (ops : list operation) (s : store) : store := fold_left step ops s.

End Runs.

(** A transaction marked SUCCESS carries a [transaction_id] field. *)
Definition receipt_field_present (d : document) : Prop :=
  d !! "status" = Some (VStr "SUCCESS") → is_Some (d !! "transaction_id").





(** *** Sample data, after tests/test_python.py *)

Definition sample_cfg : Config :=
  mkConfig "test_key" "test_secret" "174379" "test_passkey"
           "https://example.com/callback" "https://sandbox.safaricom.co.ke".

(** A runtime whose [float(str)] rejects every string; the samples carry
    their amounts as JSON numbers. *)
Definition no_float : string -> option spec_float := fun _ => None.

Definition noon : datetime := mkDatetime 2023 12 1 12 0 0 0.
Definition later : datetime := mkDatetime 2023 12 1 12 0 30 0.
Definition latest : datetime := mkDatetime 2023 12 1 12 1 0 0.

Definition sample_token : M value :=
  inr (VObj [("access_token", VStr "test_access_token")]).

Definition sample_world : world :=
  mkWorld noon noon sample_token
    (inr (VObj [("CheckoutRequestID", VStr "ws_CO_test123");
                ("MerchantRequestID", VStr "test_merchant_id");
                ("CustomerMessage", VStr "Success. Request accepted for processing")])).


(** A request for 100.75. *)
Definition fractional_request : value :=
  VObj [("phone", VStr "254708374149"); ("amount", VFloat float_100_75)].

Definition sample_request : value :=
  VObj [("phone", VStr "254708374149"); ("amount", VInt 100);
        ("account_reference", VStr "Test Payment");
        ("transaction_desc", VStr "Testing")].

(** The store after the sample initiation: one PENDING transaction. *)
Definition sample_pending : store :=
  snd (fst (initiate_stk_push sample_cfg no_float sample_world sample_request [])).

(** A callback for the sample transaction. *)
Definition sample_callback (result_code : value) (extra : list (string * value)) : value :=
  VObj [("Body", VObj [("stkCallback",
           VObj ([("MerchantRequestID", VStr "test_merchant_id");
                  ("CheckoutRequestID", VStr "ws_CO_test123");
                  ("ResultCode", result_code);
                  ("ResultDesc", VStr "description")] ++ extra))])].

Definition sample_metadata : list (string * value) :=
  [("CallbackMetadata", VObj [("Item", VList
      [ VObj [("Name", VStr "Amount"); ("Value", VFloat (float_of_Z 100))];
        VObj [("Name", VStr "MpesaReceiptNumber"); ("Value", VStr "QK12345678")];
        VObj [("Name", VStr "TransactionDate"); ("Value", VInt 20231201120000)];
        VObj [("Name", VStr "PhoneNumber"); ("Value", VInt 254708374149)] ])])].







(** The filter [handle_callback] hands to [update_one]. *)
Definition by_checkout_id (cid : value) : list (string * value) :=
  [("checkout_request_id", cid)].

(** ** Properties *)

Section PhoneValidation.

Lemma digits_only_all_digits s :
  forallb is_digit (list_ascii_of_string (digits_only s)) = true.
Proof.
  induction s as [|c r IH]; simpl; [done|].
  destruct (is_digit c) eqn:E; simpl; [rewrite E|]; done.
Qed.

Lemma digits_only_nonempty s : digits_only s ≠ "" → s ≠ "".
Proof. by destruct s. Qed.

Lemma prefix_cons c p d s :
  String.prefix (String c p) (String d s) = bool_decide (c = d) && String.prefix p s.
Proof.
  simpl. destruct (ascii_dec c d) as [->|Hne].
  - by rewrite bool_decide_eq_true_2.
  - by rewrite bool_decide_eq_false_2.
Qed.

Lemma validate_phone_number_unfold s :
  s ≠ "" →
  validate_phone_number (VStr s) =
    let phone := digits_only s in
    if negb (startswith phone "254") then
      ret (Invalid "Phone number must start with 254")
    else if negb (len phone =? 12) then
      ret (Invalid "Phone number must be 12 digits (254XXXXXXXXX)")
    else if negb (startswith phone "2547" || startswith phone "2541") then
      ret (Invalid "Phone number must be a valid Safaricom number")
    else ret (Valid phone).
Proof.
  intros Hs. unfold validate_phone_number, truthy.
  by rewrite bool_decide_eq_false_2.
Qed.

Lemma len_four_more (c1 c2 c3 c4 : ascii) r :
  (len (String c1 (String c2 (String c3 (String c4 r)))) =? 12)
  = bool_decide (String.length r = 8%nat).
Proof.
  unfold len. cbn [String.length].
  destruct (decide (String.length r = 8%nat)) as [E|E].
  - rewrite E, bool_decide_eq_true_2 by done. reflexivity.
  - rewrite bool_decide_eq_false_2 by done. apply Z.eqb_neq. lia.
Qed.

Lemma prefix_empty s : String.prefix "" s = true.
Proof. by destruct s. Qed.

Lemma bool_decide_sym {A} `{EqDecision A} (x y : A) :
  bool_decide (x = y) = bool_decide (y = x).
Proof. apply bool_decide_ext. split; congruence. Qed.

Lemma safaricom_prefix d :
  startswith d "254" = true →
  (startswith d "2547" || startswith d "2541") = fourth_is_1_or_7 d.
Proof.
  unfold startswith, fourth_is_1_or_7.
  destruct d as [|c1 [|c2 [|c3 [|c4 r]]]]; rewrite ?prefix_cons; cbn -[bool_decide];
    rewrite ?andb_false_r; try done.
  rewrite prefix_empty, !andb_true_r.
  intros [-> [-> ->]%andb_prop]%andb_prop. cbn -[bool_decide].
  rewrite orb_comm. by rewrite !(bool_decide_sym c4).
Qed.

Lemma phone_regex_match_split d :
  forallb is_digit (list_ascii_of_string d) = true →
  phone_regex_match d
  = startswith d "254" && (len d =? 12) && fourth_is_1_or_7 d.
Proof.
  unfold startswith, fourth_is_1_or_7.
  destruct d as [|c1 [|c2 [|c3 [|c4 r]]]]; rewrite ?prefix_cons; try done;
    cbn -[bool_decide len]; rewrite ?andb_false_r; try done.
  intros Hd. rewrite len_four_more.
  repeat (apply andb_prop in Hd as [_ Hd]). rewrite Hd, !andb_true_r.
  rewrite (bool_decide_sym c1), (bool_decide_sym c2), (bool_decide_sym c3).
  repeat (destruct (bool_decide _); cbn; try done).
Qed.

Lemma validate_phone_cases s :
  s ≠ "" →
  let d := digits_only s in
  (phone_regex_match d = true ∧ validate_phone_number (VStr s) = inr (Valid d)
   ∧ phone_rules_in_code_order s = inr d)
  ∨ (phone_regex_match d = false ∧
     ∃ msg rule, validate_phone_number (VStr s) = inr (Invalid msg)
                 ∧ rule_of_message msg = Some rule
                 ∧ phone_rules_in_code_order s = inl rule).
Proof.
  intros Hs d. rewrite validate_phone_number_unfold by done.
  unfold phone_rules_in_code_order. rewrite bool_decide_eq_false_2 by done.
  fold d. cbv zeta. rewrite (phone_regex_match_split d) by apply digits_only_all_digits.
  destruct (startswith d "254") eqn:E1; cbn -[len startswith];
    [|right; split; [done|]; by eexists _, _].
  rewrite (safaricom_prefix d E1).
  destruct (len d =? 12) eqn:E2; cbn -[len startswith];
    [|right; split; [done|]; by eexists _, _].
  destruct (fourth_is_1_or_7 d) eqn:E3; cbn -[len startswith];
    [by left|right; split; [done|]; by eexists _, _].
Qed.

End PhoneValidation.


(** C5. [validate_phone_number] tests its input in the order: empty
    input (before any stripping), country code 254, length 12, fourth
    digit 1 or 7, each failure answering with the message of its rule;
    it accepts, returning the stripped 12-digit string, exactly when the
    stripped input matches [254[17]\d{8}], and rejects with the reason of
    a rule otherwise. *)
Theorem validate_phone_number_rules (s : string) :
  phone_outcome (validate_phone_number (VStr s)) = Some (phone_rules_in_code_order s)
  ∧ is_valid (validate_phone_number (VStr s)) = phone_regex_match (digits_only s)
  ∧ (is_valid (validate_phone_number (VStr s)) = true ↔
       validate_phone_number (VStr s) = inr (Valid (digits_only s)))
  ∧ (is_valid (validate_phone_number (VStr s)) = false ↔
       ∃ rule, phone_outcome (validate_phone_number (VStr s)) = Some (inl rule)).
Proof.
  destruct (decide (s = "")) as [->|Hs].
  { repeat split; try done. by intros _; eexists. }
  destruct (validate_phone_cases s Hs) as [(Hm & Hv & Hr)|(Hm & msg & rule & Hv & Hmsg & Hr)];
    rewrite Hv, Hm, Hr; cbn.
  - repeat split; try done. by intros [? ?].
  - rewrite Hmsg. cbn. repeat split; try done; try (by eexists); by intros _; eexists.
Qed.

(** C5, as the specification orders the rules: an input with no digit
    is not reported as missing, and a short number without the country
    code is not reported for its length. *)
Lemma validate_phone_spec_order_differs :
  phone_outcome (validate_phone_number (VStr "abc")) = Some (inl BadCountryCode)
  ∧ validate_phone_spec "abc" = inl MissingInput
  ∧ phone_outcome (validate_phone_number (VStr "12345")) = Some (inl BadCountryCode)
  ∧ validate_phone_spec "12345" = inl LengthMismatch.
Proof. repeat split; vm_compute; reflexivity. Qed.

(** *** The store and the callback handler, step by step *)

Section Store.

Implicit Types (s pre post : store) (d : document) (p : document → bool).

Lemma split_first_Some p s pre d post :
  split_first p s = Some (pre, d, post) →
  s = pre ++ d :: post ∧ p d = true ∧ Forall (λ x, p x = false) pre.
Proof.
  revert pre. induction s as [|x r IH]; intros pre; simpl; [done|].
  destruct (p x) eqn:E.
  - intros [= <- <- <-]. by repeat split.
  - destruct (split_first p r) as [[[pre' x'] post']|]; [|done].
    intros [= <- <- <-]. destruct (IH pre' eq_refl) as (-> & ? & ?).
    repeat split; [done|]. by constructor.
Qed.


Lemma split_first_app p pre d post :
  Forall (λ x, p x = false) pre → p d = true →
  split_first p (pre ++ d :: post) = Some (pre, d, post).
Proof.
  intros Hpre Hd. induction Hpre as [|x r Hx _ IH]; simpl.
  - by rewrite Hd.
  - by rewrite Hx, IH.
Qed.

(** The answers of [update_one]. *)
Lemma update_one_cases q set s :
  (split_first (matches q) s = None ∧ update_one q set s = inr (0, s))
  ∨ (∃ pre d post,
       split_first (matches q) s = Some (pre, d, post) ∧
       (update_one q set s = inl DuplicateKeyError
        ∨ update_one q set s = inr (1, pre ++ (set ∪ d) :: post))).
Proof.
  unfold update_one.
  destruct (split_first (matches q) s) as [[[pre d] post]|]; [|by left].
  right. exists pre, d, post. split; [done|].
  destruct (clashes _ _ _); [by left|by right].
Qed.

End Store.

Section Callback.

Lemma get_obj o k dflt : get (VObj o) k dflt = inr (default dflt (assoc k o)).
Proof. done. Qed.

(** Past its three guards, [handle_callback] prepares the update and
    applies it. *)
Lemma callback_body_parts t cb s stk rc desc cid :
  callback_parts cb = Some (stk, rc, desc, cid) →
  callback_body t cb s =
    (update_data <- prepare_update t stk rc desc ;;
     result <- update_one (by_checkout_id cid) update_data s ;;
     let '(matched_count, s') := result in
     if matched_count =? 0 then
       ret (Json 404 (error_body "Transaction not found"), s')
     else
       ret (Json 200 (VObj [("message", VStr "Callback processed successfully");
                            ("status", VStr (target_status rc))]), s')).
Proof.
  unfold callback_parts, callback_body.
  destruct cb as [| | | | | |o|]; try done.
  rewrite get_obj. cbn [bind].
  destruct (default (VObj []) (assoc "Body" o)) as [| | | | | |b|]; try done.
  rewrite get_obj. cbn [bind].
  destruct (default (VObj []) (assoc "stkCallback" b)) as [| | | | | |k|]; try done.
  destruct (truthy (VObj o)) eqn:E1; [|done].
  destruct (truthy (VObj k)) eqn:E2; [|done].
  destruct (truthy (default VNull (assoc "CheckoutRequestID" k))) eqn:E3; [|done].
  cbn [andb negb]. intros [= <- <- <- <-].
  rewrite !get_obj. cbn [bind]. rewrite E3. done.
Qed.

(** Short of them, it answers 400 or raises, whatever the clock and the
    store, and leaves the store. *)
Lemma callback_body_no_parts cb :
  callback_parts cb = None →
  (∃ e, ∀ t s, callback_body t cb s = inl e)
  ∨ (∃ msg, ∀ t s, callback_body t cb s = inr (Json 400 (error_body msg), s)).
Proof.
  unfold callback_parts, callback_body.
  destruct (truthy cb) eqn:E0; cbn [negb]; [|right; by eexists].
  destruct cb as [| | | | | |o|]; try (left; by eexists).
  destruct (default (VObj []) (assoc "Body" o)) as [| | | | | |b|] eqn:Eb;
    try (left; eexists; intros ? ?; rewrite get_obj, Eb; reflexivity).
  destruct (default (VObj []) (assoc "stkCallback" b)) as [| | | | | |k|] eqn:Ek.
  1-6, 8: intros _;
    destruct (truthy (default (VObj []) (assoc "stkCallback" b))) eqn:E;
    [left|right]; eexists; intros ? ?; rewrite get_obj, Eb; cbn [bind];
    rewrite get_obj; cbn [bind]; rewrite E, ?Ek; reflexivity.
  rewrite E0.
  destruct (truthy (VObj k)) eqn:E2; cbn [negb andb];
    [|right; eexists; intros ? ?; rewrite get_obj, Eb; cbn [bind];
      rewrite get_obj, Ek; cbn [bind]; rewrite E2; reflexivity].
  destruct (truthy (default VNull (assoc "CheckoutRequestID" k))) eqn:E3; [done|].
  right; eexists; intros ? ?; rewrite get_obj, Eb; cbn [bind].
  rewrite get_obj, Ek. cbn [bind]. rewrite E2. cbn [negb]. rewrite !get_obj. cbn [bind].
  rewrite E3. reflexivity.
Qed.

End Callback.

Section Updates.

Implicit Types (s pre post : store) (d upd : document).

Lemma update_one_Some q upd s pre d post :
  split_first (matches q) s = Some (pre, d, post) →
  update_one q upd s =
    if clashes (upd ∪ d) (pre ++ post) (moved_keys (upd ∪ d) d)
    then inl DuplicateKeyError
    else inr (1, pre ++ (upd ∪ d) :: post).
Proof. unfold update_one. by intros ->. Qed.

Lemma update_one_None q upd s :
  split_first (matches q) s = None → update_one q upd s = inr (0, s).
Proof. unfold update_one. by intros ->. Qed.

Lemma clashes_ext d1 d2 others fields :
  (∀ f, f ∈ fields → field f d1 = field f d2) →
  clashes d1 others fields = clashes d2 others fields.
Proof.
  intros H. unfold clashes. induction fields as [|f r IH]; [done|].
  cbn [existsb]. rewrite IH by (intros; apply H; by right).
  rewrite (H f) by (by left). done.
Qed.

Lemma clashes_nil d others : clashes d others [] = false.
Proof. done. Qed.

Lemma moved_keys_ext d1 d2 d :
  (∀ f, f ∈ unique_indexes → field f d1 = field f d2) →
  moved_keys d1 d = moved_keys d2 d.
Proof.
  intros H. unfold moved_keys, unique_indexes in *.
  rewrite !filter_cons, !filter_nil.
  rewrite !(H "transaction_id"), !(H "checkout_request_id");
    [done | by right; left | by left].
Qed.

Lemma moved_keys_same d1 d :
  (∀ f, f ∈ unique_indexes → field f d1 = field f d) → moved_keys d1 d = [].
Proof.
  intros H. unfold moved_keys, unique_indexes in *.
  rewrite !filter_cons, !filter_nil.
  rewrite !(H "transaction_id"), !(H "checkout_request_id");
    [|by right; left | by left].
  by rewrite !decide_False by (by intros ?).
Qed.

Lemma moved_keys_unique f d1 d : f ∈ moved_keys d1 d → f ∈ unique_indexes.
Proof. unfold moved_keys. by intros [_ ?]%list_elem_of_filter. Qed.

(** Lookups in the update of a callback. *)
Lemma base_update_lookup t rc desc k :
  base_update t rc desc !! k =
    if decide (k = "status") then Some (VStr (target_status rc))
    else if decide (k = "result_code") then Some rc
    else if decide (k = "result_desc") then Some desc
    else if decide (k = "updated_at") then Some (VDate t)
    else None.
Proof.
  unfold base_update. cbn [list_to_map foldr uncurry Datatypes.curry fst snd].
  rewrite !lookup_insert, lookup_empty.
  repeat case_decide; subst; try done.
Qed.

Lemma metadata_update_lookup md k :
  metadata_update md !! k =
    if decide (k = "amount") then Some (metadata_get "Amount" md)
    else if decide (k = "phone") then Some (metadata_get "PhoneNumber" md)
    else if decide (k = "transaction_id") then Some (metadata_get "MpesaReceiptNumber" md)
    else if decide (k = "transaction_date") then Some (metadata_get "TransactionDate" md)
    else if decide (k = "balance") then Some (metadata_get "Balance" md)
    else None.
Proof.
  unfold metadata_update. cbn [list_to_map foldr uncurry Datatypes.curry fst snd].
  rewrite !lookup_insert, lookup_empty.
  repeat case_decide; subst; try done.
Qed.

(** The clock only decides [updated_at]. *)
Lemma base_update_time t1 t2 rc desc :
  base_update t2 rc desc = <["updated_at" := VDate t2]> (base_update t1 rc desc).
Proof.
  apply map_eq. intros k. rewrite lookup_insert, !base_update_lookup.
  repeat case_decide; subst; done.
Qed.

Lemma prepare_update_time t1 t2 stk rc desc :
  prepare_update t2 stk rc desc =
    (upd <- prepare_update t1 stk rc desc ;; ret (<["updated_at" := VDate t2]> upd)).
Proof.
  unfold prepare_update. rewrite (base_update_time t1 t2).
  destruct (eq_zero rc); [|done].
  destruct (extract_metadata stk) as [e|md]; [done|]. cbn [bind ret].
  apply (f_equal inr). apply map_eq. intros k.
  rewrite lookup_insert, !lookup_union, lookup_insert, metadata_update_lookup.
  repeat case_decide; subst; done.
Qed.

Lemma prepare_update_no_id t stk rc desc upd :
  prepare_update t stk rc desc = inr upd → upd !! "checkout_request_id" = None.
Proof.
  unfold prepare_update. destruct (eq_zero rc).
  - destruct (extract_metadata stk) as [e|md]; [done|]. intros [= <-].
    rewrite lookup_union, metadata_update_lookup, base_update_lookup.
    repeat case_decide; done.
  - intros [= <-]. rewrite base_update_lookup. repeat case_decide; done.
Qed.

Lemma prepare_update_updated_at t stk rc desc upd :
  prepare_update t stk rc desc = inr upd → upd !! "updated_at" = Some (VDate t).
Proof.
  unfold prepare_update. destruct (eq_zero rc).
  - destruct (extract_metadata stk) as [e|md]; [done|]. intros [= <-].
    rewrite lookup_union, metadata_update_lookup, base_update_lookup.
    repeat case_decide; done.
  - intros [= <-]. rewrite base_update_lookup. repeat case_decide; done.
Qed.

Lemma retime_union k v upd d :
  is_Some (upd !! k) →
  <[k := v]> upd ∪ (upd ∪ d) = <[k := v]> upd ∪ d.
Proof.
  intros Hk. apply map_eq. intros i. rewrite !lookup_union, lookup_insert.
  case_decide; subst.
  - by destruct (upd !! i), (d !! i).
  - by destruct (upd !! i), (d !! i).
Qed.

Lemma retime_field k v upd d f :
  f ≠ k → field f (<[k := v]> upd ∪ d) = field f (upd ∪ d).
Proof.
  intros Hf. unfold field. by rewrite !lookup_union, lookup_insert_ne.
Qed.

Lemma retime_delete k v upd d :
  delete k (<[k := v]> upd ∪ d) = delete k (upd ∪ d).
Proof.
  apply map_eq. intros i. rewrite !lookup_delete. case_decide; [done|].
  by rewrite !lookup_union, lookup_insert_ne.
Qed.

Lemma matches_checkout_id cid d :
  matches (by_checkout_id cid) d = bool_decide (d !! "checkout_request_id" = Some cid).
Proof. unfold matches, by_checkout_id. cbn. by rewrite andb_true_r. Qed.

Lemma matches_after_update cid upd d :
  upd !! "checkout_request_id" = None →
  matches (by_checkout_id cid) (upd ∪ d) = matches (by_checkout_id cid) d.
Proof.
  intros H. rewrite !matches_checkout_id, lookup_union, H.
  by destruct (d !! "checkout_request_id").
Qed.

End Updates.

Section Reconcile.

Implicit Types (s pre post : store) (d upd : document) (cb : value).

(** [handle_callback] on a callback with its parts and a prepared update. *)
Lemma handle_callback_prepared t cb s stk rc desc cid upd :
  callback_parts cb = Some (stk, rc, desc, cid) →
  prepare_update t stk rc desc = inr upd →
  handle_callback t cb s =
    match split_first (matches (by_checkout_id cid)) s with
    | None => (Json 404 (error_body "Transaction not found"), s)
    | Some (pre, d, post) =>
        if clashes (upd ∪ d) (pre ++ post) (moved_keys (upd ∪ d) d)
        then (ServerError "Callback processing failed" DuplicateKeyError, s)
        else (ok_answer rc, pre ++ (upd ∪ d) :: post)
    end.
Proof.
  intros Hp Hu. unfold handle_callback.
  rewrite (callback_body_parts _ _ _ _ _ _ _ Hp), Hu. cbn [bind].
  destruct (split_first _ s) as [[[pre d] post]|] eqn:E.
  - rewrite (update_one_Some _ _ _ _ _ _ E).
    by destruct (clashes _ _ _).
  - by rewrite (update_one_None _ _ _ E).
Qed.

Lemma handle_callback_raised t cb s stk rc desc cid e :
  callback_parts cb = Some (stk, rc, desc, cid) →
  prepare_update t stk rc desc = inl e →
  handle_callback t cb s = (ServerError "Callback processing failed" e, s).
Proof.
  intros Hp Hu. unfold handle_callback.
  by rewrite (callback_body_parts _ _ _ _ _ _ _ Hp), Hu.
Qed.

Lemma handle_callback_no_parts cb :
  callback_parts cb = None →
  ∃ r, status_code r ≠ 200 ∧ ∀ t s, handle_callback t cb s = (r, s).
Proof.
  intros H. unfold handle_callback.
  destruct (callback_body_no_parts cb H) as [[e He]|[msg He]].
  - eexists. split; [|intros; by rewrite He]. done.
  - eexists. split; [|intros; by rewrite He]. done.
Qed.

(** Every run of the handler either leaves the store and answers
    something else than 200, or rewrites the first transaction with the
    callback's id and answers 200. *)
Lemma handle_callback_cases t cb s :
  (snd (handle_callback t cb s) = s ∧ status_code (fst (handle_callback t cb s)) ≠ 200)
  ∨ (∃ stk rc desc cid upd pre d post,
       callback_parts cb = Some (stk, rc, desc, cid) ∧
       prepare_update t stk rc desc = inr upd ∧
       split_first (matches (by_checkout_id cid)) s = Some (pre, d, post) ∧
       clashes (upd ∪ d) (pre ++ post) (moved_keys (upd ∪ d) d) = false ∧
       handle_callback t cb s = (ok_answer rc, pre ++ (upd ∪ d) :: post)).
Proof.
  destruct (callback_parts cb) as [[[[stk rc] desc] cid]|] eqn:Hp.
  - destruct (prepare_update t stk rc desc) as [e|upd] eqn:Hu.
    + left. by rewrite (handle_callback_raised _ _ _ _ _ _ _ _ Hp Hu).
    + rewrite (handle_callback_prepared _ _ _ _ _ _ _ _ Hp Hu).
      destruct (split_first _ s) as [[[pre d] post]|] eqn:E; [|by left].
      destruct (clashes _ _ _) eqn:Ec; [by left|].
      right. by exists stk, rc, desc, cid, upd, pre, d, post.
  - destruct (handle_callback_no_parts cb Hp) as (r & Hr & H).
    left. by rewrite H.
Qed.

Lemma unique_indexes_not_updated_at f : f ∈ unique_indexes → f ≠ "updated_at".
Proof.
  intros Hin ->. revert Hin. unfold unique_indexes.
  rewrite !elem_of_cons, elem_of_nil. by intros [?|[?|[]]].
Qed.

(** The answer never depends on the clock, and the store only in
    [updated_at]. *)
Lemma handle_callback_time t1 t2 cb s :
  fst (handle_callback t2 cb s) = fst (handle_callback t1 cb s)
  ∧ delete "updated_at" <$> snd (handle_callback t2 cb s)
    = delete "updated_at" <$> snd (handle_callback t1 cb s).
Proof.
  destruct (callback_parts cb) as [[[[stk rc] desc] cid]|] eqn:Hp.
  - pose proof (prepare_update_time t1 t2 stk rc desc) as Ht.
    destruct (prepare_update t1 stk rc desc) as [e|upd] eqn:Hu; cbn [bind ret] in Ht.
    + by rewrite !(handle_callback_raised _ _ _ _ _ _ _ _ Hp Hu),
        !(handle_callback_raised _ _ _ _ _ _ _ _ Hp Ht).
    + rewrite (handle_callback_prepared _ _ _ _ _ _ _ _ Hp Hu),
        (handle_callback_prepared _ _ _ _ _ _ _ _ Hp Ht).
      destruct (split_first _ s) as [[[pre d] post]|] eqn:E; [|done].
      assert (∀ f, f ∈ unique_indexes →
                field f (<["updated_at" := VDate t2]> upd ∪ d) = field f (upd ∪ d)) as Hf
        by (intros f Hin; by apply retime_field, unique_indexes_not_updated_at).
      rewrite (moved_keys_ext _ (upd ∪ d)) by done.
      rewrite (clashes_ext _ (upd ∪ d))
        by (intros f Hin%moved_keys_unique; by apply Hf).
      destruct (clashes _ _ _); [done|]. cbn [fst snd]. split; [done|].
      rewrite !fmap_app, !fmap_cons. by rewrite retime_delete.
  - destruct (handle_callback_no_parts cb Hp) as (r & Hr & H). by rewrite !H.
Qed.

(** Redelivery: a second run of the same callback ends where a single
    run at the later time ends. *)
Lemma handle_callback_again t1 t2 cb s :
  handle_callback t2 cb (snd (handle_callback t1 cb s)) = handle_callback t2 cb s.
Proof.
  destruct (handle_callback_cases t1 cb s)
    as [[-> _]|(stk & rc & desc & cid & upd & pre & d & post & Hp & Hu & Hs & Hc & ->)];
    [done|].
  cbn [snd].
  pose proof (prepare_update_time t1 t2 stk rc desc) as Ht.
  rewrite Hu in Ht. cbn [bind ret] in Ht.
  rewrite !(handle_callback_prepared _ _ _ _ _ _ _ _ Hp Ht).
  destruct (split_first_Some _ _ _ _ _ Hs) as (Hsplit & Hd & Hpre).
  rewrite Hs, (split_first_app _ pre (upd ∪ d) post Hpre).
  2:{ rewrite matches_after_update; [done|]. by eapply prepare_update_no_id. }
  rewrite retime_union by (erewrite prepare_update_updated_at; done).
  rewrite (moved_keys_same _ (upd ∪ d)), clashes_nil.
  2:{ intros f Hf. by apply retime_field, unique_indexes_not_updated_at. }
  rewrite (moved_keys_ext _ (upd ∪ d)).
  2:{ intros f Hf. by apply retime_field, unique_indexes_not_updated_at. }
  rewrite (clashes_ext _ (upd ∪ d)), Hc; [done|].
  intros f Hf%moved_keys_unique. by apply retime_field, unique_indexes_not_updated_at.
Qed.

End Reconcile.

Section Preparation.

Implicit Types (s pre post : store) (d upd : document) (cb : value).




Lemma prepare_update_failed t stk rc desc :
  eq_zero rc = false → prepare_update t stk rc desc = inr (base_update t rc desc).
Proof. unfold prepare_update. by intros ->. Qed.

Lemma target_status_failed rc : target_status rc = "FAILED" ↔ eq_zero rc = false.
Proof. unfold target_status. by destruct (eq_zero rc). Qed.

Lemma target_status_success rc : target_status rc = "SUCCESS" ↔ eq_zero rc = true.
Proof. unfold target_status. by destruct (eq_zero rc). Qed.



End Preparation.



(** C3. Redelivery of a callback: a second run with the identical
    payload ends in the state, and gives the answer, of a single run made
    at the time of the second one; against the state after the first run
    only [updated_at] can differ, and nothing differs when both runs read
    the same clock. *)
Theorem handle_callback_redelivery (t1 t2 : datetime) (cb : value) (s : store) :
  let once := handle_callback t1 cb s in
  let twice := handle_callback t2 cb (snd once) in
  twice = handle_callback t2 cb s
  ∧ fst twice = fst once
  ∧ delete "updated_at" <$> snd twice = delete "updated_at" <$> snd once
  ∧ handle_callback t1 cb (snd once) = once.
Proof.
  cbv zeta. rewrite !handle_callback_again.
  destruct (handle_callback_time t1 t2 cb s) as [Hr Hs].
  repeat split; done.
Qed.

(** C3, as stated: the second delivery moves [updated_at], so the state
    after two deliveries is not the state after one. *)
Lemma redelivery_moves_updated_at :
  let cb := sample_callback (VInt 1) [] in
  let once := handle_callback later cb sample_pending in
  let twice := handle_callback latest cb (snd once) in
  field "updated_at" <$> snd once = [VDate later]
  ∧ field "updated_at" <$> snd twice = [VDate latest]
  ∧ snd twice ≠ snd once.
Proof.
  cbv zeta.
  assert (field "updated_at" <$>
            snd (handle_callback later (sample_callback (VInt 1) []) sample_pending)
          = [VDate later]) as H1 by (vm_compute; reflexivity).
  assert (field "updated_at" <$>
            snd (handle_callback latest (sample_callback (VInt 1) [])
                   (snd (handle_callback later (sample_callback (VInt 1) []) sample_pending)))
          = [VDate latest]) as H2 by (vm_compute; reflexivity).
  split; [exact H1|split; [exact H2|]].
  intros E. rewrite E, H1 in H2. discriminate H2.
Qed.




Section Failed.

Implicit Types (s pre post : store) (d upd : document) (cb : value).




End Failed.



(** C9. A callback is classified SUCCESS exactly when its ResultCode
    compares equal to [0]: the integer 0, the float zero of either sign,
    or the boolean false. A ResultCode given as a string (such as "0"),
    as null, or left out is classified FAILED, and a FAILED callback's
    metadata is not read: its update is [base_update] whatever the
    callback carries. *)
Theorem success_iff_equal_to_zero (rc : value) :
  (target_status rc = "SUCCESS" ↔
     rc = VInt 0 ∨ rc = VBool false ∨ ∃ sgn, rc = VFloat (S754_zero sgn))
  ∧ (∀ str, target_status (VStr str) = "FAILED")
  ∧ target_status VNull = "FAILED"
  ∧ (∀ t stk desc, target_status rc = "FAILED" →
       prepare_update t stk rc desc = inr (base_update t rc desc)).
Proof.
  split; [|split; [done|split; [done|]]].
  - rewrite target_status_success. split.
    + destruct rc as [|[]|n|[sgn|sgn| |sgn m e]| | | |]; cbn; try done.
      * intros _. right. by left.
      * intros ->%Z.eqb_eq. by left.
      * intros _. right. right. by eexists.
    + by intros [->|[->|[sgn ->]]].
  - intros t stk desc Hz%target_status_failed. by apply prepare_update_failed.
Qed.

(** C9, as stated: a ResultCode of [0.0], which is not the integer 0,
    is classified SUCCESS and its metadata is extracted. *)
Lemma float_zero_is_success :
  let cb := sample_callback (VFloat (S754_zero false)) sample_metadata in
  let out := handle_callback later cb sample_pending in
  VFloat (S754_zero false) ≠ VInt 0
  ∧ fst out = Json 200 (VObj [("message", VStr "Callback processed successfully");
                              ("status", VStr "SUCCESS")])
  ∧ field "status" <$> snd out = [VStr "SUCCESS"]
  ∧ field "transaction_id" <$> snd out = [VStr "QK12345678"].
Proof. cbv zeta. split; [done|]. repeat split; vm_compute; reflexivity. Qed.

Section Initiation.

Variable cfg : Config.
Variable float_of_str : string → option spec_float.

Implicit Types (s : store) (w : world) (data : value).

Lemma io_bind_lift {A B} (m : M A) (k : A → IO B) :
  io_bind (io_lift m) k = match m with inl e => ([], inl e) | inr a => k a end.
Proof. destruct m as [e|a]; [done|]. unfold io_bind, io_lift. by destruct (k a). Qed.

Lemma io_bind_ret {A B} (a : A) (k : A → IO B) : io_bind (io_ret a) k = k a.
Proof. unfold io_bind, io_ret. by destruct (k a). Qed.

(** An initiation whose request is valid, whose token and password were
    obtained and whose push request the provider answered with an object
    free of [errorCode]: the transaction is inserted, or refused by a
    unique index. *)
Lemma initiate_answered w s o p a sent_t tok pw ts n resp :
  o ≠ [] →
  validate_phone_number (default VNull (assoc "phone" o)) = inr (Valid p) →
  validate_amount float_of_str (default VNull (assoc "amount" o)) = inr (Valid a) →
  get_access_token cfg w = (sent_t, inr tok) →
  generate_password cfg w = inr (pw, ts) →
  int_of_float a = inr n →
  stk_reply w = inr (VObj resp) →
  assoc "errorCode" resp = None →
  initiate_stk_push cfg float_of_str w (VObj o) s =
    if clashes (accepted_document w p a o resp) s unique_indexes
    then (Json 409 (error_body "Duplicate transaction"), s,
          sent_t ++ [accepted_post cfg tok pw ts n p o])
    else (accepted_answer resp, s ++ [accepted_document w p a o resp],
          sent_t ++ [accepted_post cfg tok pw ts n p o]).
Proof.
  intros Ho Hp Ha Ht Hpw Hn Hr He.
  unfold initiate_stk_push, initiate_body.
  cbn [truthy]. rewrite bool_decide_eq_false_2 by done. cbn [negb].
  rewrite !get_obj, !io_bind_lift, Hp, io_bind_lift, Ha, Ht.
  cbn [io_bind]. rewrite !io_bind_lift, Hpw, io_bind_lift, Hn.
  unfold io_send. rewrite Hr. cbn [io_bind contains].
  rewrite io_bind_lift. cbn [ret]. rewrite He.
  rewrite bool_decide_eq_false_2 by (by intros [? ?]).
  rewrite !get_obj, !io_bind_lift. unfold insert_one.
  fold (accepted_document w p a o resp).
  destruct (clashes _ s unique_indexes); cbn [raise ret].
  - unfold io_ret. cbn [app]. reflexivity.
  - rewrite ?io_bind_lift. unfold io_ret, ret. cbn [app]. reflexivity.
Qed.

(** Every initiation either leaves the store and answers something
    else than 200, or went through every step of the accepted path. *)
Local Ltac enter Et :=
  left; unfold initiate_stk_push, initiate_body; rewrite Et; cbn [negb];
  rewrite ?get_obj.
Local Ltac past H := rewrite ?io_bind_lift, H; cbn [io_bind].
Local Ltac sent H := unfold io_send; rewrite H; cbn [io_bind].

Lemma initiate_cases w data s :
  (snd (fst (initiate_stk_push cfg float_of_str w data s)) = s
   ∧ status_code (fst (fst (initiate_stk_push cfg float_of_str w data s))) ≠ 200)
  ∨ (∃ o p a sent_t tok pw ts n resp,
       data = VObj o ∧ o ≠ []
       ∧ validate_phone_number (default VNull (assoc "phone" o)) = inr (Valid p)
       ∧ validate_amount float_of_str (default VNull (assoc "amount" o)) = inr (Valid a)
       ∧ get_access_token cfg w = (sent_t, inr tok)
       ∧ generate_password cfg w = inr (pw, ts)
       ∧ int_of_float a = inr n
       ∧ stk_reply w = inr (VObj resp)
       ∧ assoc "errorCode" resp = None
       ∧ clashes (accepted_document w p a o resp) s unique_indexes = false
       ∧ initiate_stk_push cfg float_of_str w data s
         = (accepted_answer resp, s ++ [accepted_document w p a o resp],
            sent_t ++ [accepted_post cfg tok pw ts n p o])).
Proof.
  destruct (truthy data) eqn:Et.
  2:{ left. unfold initiate_stk_push, initiate_body. by rewrite Et. }
  destruct data as [| | | | | |o|]; try (by enter Et).
  assert (o ≠ []) as Ho by (by destruct o).
  destruct (validate_phone_number (default VNull (assoc "phone" o))) as [e|[p|msg]] eqn:Hp.
  1, 3: by (enter Et; past Hp).
  destruct (validate_amount float_of_str (default VNull (assoc "amount" o)))
    as [e|[a|msg]] eqn:Ha.
  1, 3: by (enter Et; past Hp; past Ha).
  destruct (get_access_token cfg w) as [sent_t [e|tok]] eqn:Htok.
  1: by (enter Et; past Hp; past Ha; past Htok).
  destruct (generate_password cfg w) as [e|[pw ts]] eqn:Hpw.
  1: by (enter Et; past Hp; past Ha; past Htok; past Hpw).
  destruct (int_of_float a) as [e|n] eqn:Hn.
  1: by (enter Et; past Hp; past Ha; past Htok; past Hpw; past Hn).
  destruct (stk_reply w) as [e|reply] eqn:Hr.
  1: by (enter Et; past Hp; past Ha; past Htok; past Hpw; past Hn; sent Hr).
  destruct (contains reply "errorCode") as [e|has_error] eqn:Hc.
  1: by (enter Et; past Hp; past Ha; past Htok; past Hpw; past Hn; sent Hr; past Hc).
  destruct reply as [| | | | | |resp|].
  1-6, 8: by (enter Et; past Hp; past Ha; past Htok; past Hpw; past Hn; sent Hr; past Hc;
              destruct has_error).
  destruct (assoc "errorCode" resp) as [v|] eqn:He.
  { enter Et; past Hp; past Ha; past Htok; past Hpw; past Hn; sent Hr.
    cbn [contains]. rewrite io_bind_lift. cbn [ret]. rewrite He.
    rewrite bool_decide_eq_true_2 by (by eexists).
    by rewrite get_obj, io_bind_lift. }
  rewrite (initiate_answered w s o p a sent_t tok pw ts n resp) by done.
  destruct (clashes _ s unique_indexes) eqn:Hcl; [by left|].
  right. by exists o, p, a, sent_t, tok, pw, ts, n, resp.
Qed.

End Initiation.

Section Amounts.

Lemma int_of_float_truncates f n : int_of_float f = inr n → truncates f n.
Proof.
  destruct f as [sgn|sgn| |sgn m e]; cbn; try done.
  - by intros [= <-].
  - intros [= <-].
    assert (0 ≤ Z.shiftl (Z.pos m) e) as Hnn by (apply Z.shiftl_nonneg; lia).
    assert (Z.abs (cond_Zopp sgn (Z.shiftl (Z.pos m) e)) = Z.shiftl (Z.pos m) e) as ->
      by (destruct sgn; cbn [cond_Zopp]; lia).
    split; [done|].
    destruct (Z.le_gt_cases 0 e) as [He|He].
    + rewrite Z.shiftl_mul_pow2 by done.
      rewrite (Z.max_r 0 e), (Z.max_l 0 (- e)) by lia. cbn [Z.pow]. lia.
    + rewrite Z.shiftl_div_pow2 by lia.
      rewrite (Z.max_l 0 e), (Z.max_r 0 (- e)) by lia. cbn [Z.pow].
      assert (0 < 2 ^ (- e)) as Hpos by (apply Z.pow_pos_nonneg; lia).
      pose proof (Z.mul_div_le (Z.pos m) (2 ^ (- e)) Hpos).
      pose proof (Z.mul_succ_div_gt (Z.pos m) (2 ^ (- e)) Hpos).
      lia.
Qed.

End Amounts.

Section Documents.

Lemma accepted_document_lookup w p a o resp k :
  accepted_document w p a o resp !! k =
    if decide (k = "phone") then Some (VStr p)
    else if decide (k = "amount") then Some (VFloat a)
    else if decide (k = "status") then Some (VStr "PENDING")
    else if decide (k = "account_reference")
      then Some (default (VStr "Payment") (assoc "account_reference" o))
    else if decide (k = "transaction_desc")
      then Some (default (VStr "Payment for goods/services") (assoc "transaction_desc" o))
    else if decide (k = "created_at") then Some (VDate (utcnow w))
    else if decide (k = "checkout_request_id")
      then Some (default VNull (assoc "CheckoutRequestID" resp))
    else if decide (k = "merchant_request_id")
      then Some (default VNull (assoc "MerchantRequestID" resp))
    else if decide (k = "customer_message")
      then Some (default (VStr "") (assoc "CustomerMessage" resp))
    else if decide (k = "request_id") then Some (default (VStr "") (assoc "RequestID" resp))
    else None.
Proof.
  unfold accepted_document, pending_transaction.
  cbn [list_to_map foldr uncurry Datatypes.curry fst snd].
  rewrite !lookup_insert, lookup_empty.
  repeat case_decide; subst; try done.
Qed.

End Documents.





(** C10. In every accepted initiation the [Amount] of the payload posted
    to the provider is the validated amount cut to an integer toward
    zero, while the stored PENDING transaction keeps the validated float
    itself. *)
Theorem submitted_amount_truncated (cfg : Config)
    (float_of_str : string → option spec_float) (w : world) (data : value) (s : store) :
  let out := initiate_stk_push cfg float_of_str w data s in
  status_code (fst (fst out)) = 200 →
  ∃ o a n url tok payload doc,
    data = VObj o
    ∧ validate_amount float_of_str (default VNull (assoc "amount" o)) = inr (Valid a)
    ∧ int_of_float a = inr n
    ∧ truncates a n
    ∧ last (snd out) = Some (StkPost url tok (VObj payload))
    ∧ assoc "Amount" payload = Some (VInt n)
    ∧ snd (fst out) = s ++ [doc]
    ∧ doc !! "amount" = Some (VFloat a)
    ∧ doc !! "status" = Some (VStr "PENDING").
Proof.
  cbv zeta. intros H200.
  destruct (initiate_cases cfg float_of_str w data s)
    as [[_ Hne]|(o & p & a & sent_t & tok & pw & ts & n & resp & -> & Ho & Hp & Ha
                 & Ht & Hpw & Hn & Hr & He & Hcl & Hout)]; [done|].
  rewrite Hout. cbn [fst snd].
  eexists o, a, n, _, tok, _, (accepted_document w p a o resp).
  split; [done|]. split; [done|]. split; [done|].
  split; [by apply int_of_float_truncates|].
  split; [unfold accepted_post, stk_payload; by rewrite last_snoc|].
  split; [done|]. split; [done|].
  by rewrite !accepted_document_lookup.
Qed.

Lemma submitted_amount_truncated_witness :
  ∃ o a n url tok payload doc,
    fractional_request = VObj o
    ∧ validate_amount no_float (default VNull (assoc "amount" o)) = inr (Valid a)
    ∧ int_of_float a = inr n
    ∧ truncates a n
    ∧ last (snd (initiate_stk_push sample_cfg no_float sample_world fractional_request []))
      = Some (StkPost url tok (VObj payload))
    ∧ assoc "Amount" payload = Some (VInt n)
    ∧ snd (fst (initiate_stk_push sample_cfg no_float sample_world fractional_request []))
      = [] ++ [doc]
    ∧ doc !! "amount" = Some (VFloat a)
    ∧ doc !! "status" = Some (VStr "PENDING").
Proof.
  apply (submitted_amount_truncated sample_cfg no_float sample_world fractional_request []).
  vm_compute. reflexivity.
Defined.

(** 100.75 is posted as 100 and stored as 100.75. *)
Example amount_100_75 :
  let out := initiate_stk_push sample_cfg no_float sample_world fractional_request [] in
  (∃ url tok payload, last (snd out) = Some (StkPost url tok (VObj payload))
                      ∧ assoc "Amount" payload = Some (VInt 100))
  ∧ (.!! "amount") <$> snd (fst out) = [Some (VFloat float_100_75)]
  ∧ int_of_float float_100_75 = inr 100
  ∧ float_100_75 ≠ float_of_Z 100.
Proof.
  cbv zeta. split; [|split; [|split]].
  - eexists _, _, _. split; vm_compute; reflexivity.
  - vm_compute. reflexivity.
  - vm_compute. reflexivity.
  - vm_compute. discriminate.
Qed.

Section Invariant.

Variable cfg : Config.
Variable float_of_str : string → option spec_float.

Lemma initiate_keeps_receipts w data s :
  Forall receipt_field_present s →
  Forall receipt_field_present (snd (fst (initiate_stk_push cfg float_of_str w data s))).
Proof.
  intros Hs.
  destruct (initiate_cases cfg float_of_str w data s)
    as [[-> _]|(o & p & a & sent_t & tok & pw & ts & n & resp & _ & _ & _ & _
                & _ & _ & _ & _ & _ & _ & ->)]; [done|].
  cbn [fst snd]. apply Forall_app. split; [done|]. apply Forall_singleton.
  unfold receipt_field_present. by rewrite accepted_document_lookup.
Qed.

Lemma prepare_update_receipt t stk rc desc upd d :
  prepare_update t stk rc desc = inr upd → receipt_field_present (upd ∪ d).
Proof.
  unfold prepare_update, receipt_field_present. destruct (eq_zero rc) eqn:Hz.
  - destruct (extract_metadata stk) as [e|md]; [done|]. intros [= <-] _.
    rewrite !lookup_union, metadata_update_lookup, base_update_lookup. cbn.
    destruct (d !! "transaction_id"); by eexists.
  - intros [= <-]. rewrite lookup_union, base_update_lookup.
    unfold target_status. rewrite Hz. cbn. by destruct (d !! "status").
Qed.

Lemma handle_callback_keeps_receipts t cb s :
  Forall receipt_field_present s →
  Forall receipt_field_present (snd (handle_callback t cb s)).
Proof.
  intros Hs.
  destruct (handle_callback_cases t cb s)
    as [[-> _]|(stk & rc & desc & cid & upd & pre & d & post & Hp & Hu & Hsp & Hc & ->)];
    [done|].
  destruct (split_first_Some _ _ _ _ _ Hsp) as (-> & _ & _).
  cbn [snd]. apply Forall_app in Hs as [Hpre Hpost%Forall_cons_1].
  apply Forall_app. split; [done|]. apply Forall_cons. split; [|tauto].
  by eapply prepare_update_receipt.
Qed.

Lemma run_keeps_receipts ops s :
  Forall receipt_field_present s →
  Forall receipt_field_present (run cfg float_of_str ops s).
Proof.
  revert s. induction ops as [|op ops IH]; intros s Hs; [done|].
  cbn [run fold_left]. apply IH. destruct op as [w data|t cb]; cbn [step].
  - by apply initiate_keeps_receipts.
  - by apply handle_callback_keeps_receipts.
Qed.

End Invariant.

(** C4. After any sequence of initiations and callbacks on an empty
    store, every transaction marked SUCCESS carries a [transaction_id]
    field; a SUCCESS callback writes there what its metadata gives for
    [MpesaReceiptNumber], which is null when the metadata has no such
    item. *)
Theorem success_carries_receipt_field (cfg : Config)
    (float_of_str : string → option spec_float) (ops : list operation) :
  Forall receipt_field_present (run cfg float_of_str ops [])
  ∧ (∀ t cb s stk rc desc cid,
       callback_parts cb = Some (stk, rc, desc, cid) →
       target_status rc = "SUCCESS" →
       status_code (fst (handle_callback t cb s)) = 200 →
       ∃ md pre d d' post,
         extract_metadata stk = inr md
         ∧ s = pre ++ d :: post
         ∧ snd (handle_callback t cb s) = pre ++ d' :: post
         ∧ d' !! "status" = Some (VStr "SUCCESS")
         ∧ d' !! "transaction_id" = Some (metadata_get "MpesaReceiptNumber" md))
  ∧ (∀ md, (∀ v, (VStr "MpesaReceiptNumber", v) ∉ md) →
           metadata_get "MpesaReceiptNumber" md = VNull).
Proof.
  split; [by apply run_keeps_receipts|]. split.
  - intros t cb s stk rc desc cid Hp Hz%target_status_success H200.
    destruct (handle_callback_cases t cb s)
      as [[_ Hne]|(stk' & rc' & desc' & cid' & upd & pre & d & post & Hp' & Hu & Hsp & Hc & Hr)];
      [done|].
    rewrite Hp in Hp'. injection Hp' as <- <- <- <-.
    destruct (split_first_Some _ _ _ _ _ Hsp) as (-> & _ & _).
    unfold prepare_update in Hu. rewrite Hz in Hu.
    destruct (extract_metadata stk) as [e|md]; [done|]. injection Hu as <-.
    exists md, pre, d, (metadata_update md ∪ base_update t rc desc ∪ d), post.
    rewrite Hr. repeat split; try done.
    + rewrite !lookup_union, metadata_update_lookup, base_update_lookup.
      unfold target_status. rewrite Hz. cbn. by destruct (d !! "status").
    + rewrite !lookup_union, metadata_update_lookup, base_update_lookup. cbn.
      by destruct (d !! "transaction_id").
  - intros md. induction md as [|[name v] r IH]; intros Hno; [done|].
    cbn [metadata_get]. rewrite bool_decide_eq_false_2.
    + apply IH. intros v' Hin. apply (Hno v'). by right.
    + intros ->. apply (Hno v). by left.
Qed.

(** C4, as stated: a callback with result code 0 and no metadata turns
    the pending transaction into SUCCESS with a null [transaction_id]. *)
Lemma success_without_receipt :
  let s' := snd (handle_callback later (sample_callback (VInt 0) []) sample_pending) in
  s' = run sample_cfg no_float
         [Initiate sample_world sample_request;
          Reconcile later (sample_callback (VInt 0) [])] []
  ∧ (.!! "status") <$> s' = [Some (VStr "SUCCESS")]
  ∧ (.!! "transaction_id") <$> s' = [Some VNull].
Proof. cbv zeta. split; [reflexivity|]. split; vm_compute; reflexivity. Qed.

Section Ordering.

Lemma lex_leb_total a b : lex_leb a b = true ∨ lex_leb b a = true.
Proof.
  revert b. induction a as [|x a IH]; intros [|y b]; cbn; try (by left); try (by right).
  destruct (IH b) as [H|H]; rewrite H, ?andb_true_r.
  - destruct (Z.ltb_spec x y), (Z.ltb_spec y x), (Z.eqb_spec x y), (Z.eqb_spec y x);
      cbn; try (by left); try (by right); lia.
  - destruct (Z.ltb_spec x y), (Z.ltb_spec y x), (Z.eqb_spec x y), (Z.eqb_spec y x);
      cbn; try (by left); try (by right); lia.
Qed.

Lemma lex_leb_trans a b c :
  lex_leb a b = true → lex_leb b c = true → lex_leb a c = true.
Proof.
  revert b c. induction a as [|x a IH]; intros [|y b] [|z c]; cbn; try done.
  rewrite !orb_true_iff, !andb_true_iff, !Z.ltb_lt, !Z.eqb_eq.
  intros [?|[-> Hab]] [?|[-> Hbc]]; try (left; lia).
  right. split; [done|]. by eapply IH.
Qed.

#[local] Instance newer_first_total : Total newer_first.
Proof.
  intros a b. unfold newer_first, created_leb.
  destruct (field "created_at" a) as [| | | | | | |x],
           (field "created_at" b) as [| | | | | | |y];
    try (by left); try (by right).
  unfold datetime_leb. destruct (lex_leb_total (datetime_key x) (datetime_key y)); auto.
Qed.

#[local] Instance newer_first_trans : Transitive newer_first.
Proof.
  intros a b c. unfold newer_first, created_leb.
  destruct (field "created_at" a) as [| | | | | | |x],
           (field "created_at" b) as [| | | | | | |y],
           (field "created_at" c) as [| | | | | | |z]; try done.
  unfold datetime_leb. intros H1 H2. by eapply lex_leb_trans.
Qed.






End Ordering.

Section Iso.





End Iso.

Section Query.



End Query.



